(** * Package response: builders for RunFunctionResponse

    A shallow embedding of [response/response.go] and a verification of
    its interface contract.

    Conventions of the embedding.
    - A Go pointer to a message is an [option]: [None] is the nil pointer.
    - A Go map is an [option (gmap string V)]: [None] is the nil map, and
      [Some ∅] an allocated map without entries.  Reading a nil map gives
      no entry; assigning into it panics.
    - A Go slice is an [option (list A)], [None] being the nil slice.
    - A function that may panic returns an [option]: [None] is the panic
      (nil dereference, assignment to an entry of a nil map).  A Go
      [error] result is a value of type [option error] next to the new
      response, [None] being the nil error.
    - The response [rsp] is mutated in place by the Go code; here every
      builder takes the response and returns the response after the call.
      The arguments [rsp], [xr], the values of [dcds] and [err] stand for
      the objects behind non-nil pointers and interfaces.
    - [To] hands the desired state and the context of the request to the
      response by pointer; the embedding follows what the response holds,
      not what it shares with the request. *)

From Stdlib Require Import ZArith.
From stdpp Require Import gmap strings list fin_maps.

(** ** Go maps and slices *)

Abbreviation gomap V := (option (gmap string V)).

(** [m[k]], [range m], [len(m)]: what a possibly nil map holds. *)
Definition entries {V : Type} (m : gomap V) : gmap string V :=
  default ∅ m.

(** [m[k] = v]: panics when [m] is the nil map. *)
Definition map_assign {V : Type} (m : gomap V) (k : string) (v : V)
    : option (gomap V) :=
  match m with
  | None => None
  | Some m => Some (Some (<[k := v]> m))
  end.

(** What a possibly nil slice holds. *)
Definition elems {A : Type} (s : option (list A)) : list A :=
  default [] s.

(** [append(s, x)]: the result is never the nil slice. *)
Definition append {A : Type} (s : option (list A)) (x : A)
    : option (list A) :=
  Some (elems s ++ [x]).

(** ** Texts *)

(** Whether the text [sub] occurs in [s]. *)
Definition mentions (s sub : string) : bool :=
  if String.index 0 sub s is Some _ then true else false.

(** ** Package errors *)

(** Modelled from the spec: package [errors] of this repository is not
    part of the sources at hand.  An error is made from a message, or
    wraps a cause under a message; its text is the message followed by
    the text of the cause. *)
Inductive error : Type :=
  | errorString (s : string)
  | withMessage (msg : string) (cause : error).

Fixpoint Error (e : error) : string :=
  match e with
  | errorString s => s
  | withMessage msg cause => msg +:+ ": " +:+ Error cause
  end.

Definition Unwrap (e : error) : option error :=
  match e with
  | errorString _ => None
  | withMessage _ cause => Some cause
  end.

(** Modelled from the spec: [errors.New], of the same package, makes the
    validation errors. *)
Definition New (text : string) : option error := Some (errorString text).

(** Modelled from the spec: [errors.Wrapf(err, format, args...)], of the
    same package, here taking the formatted message; it gives nil for a
    nil error and otherwise an error that wraps [err]. *)
Definition Wrapf (err : option error) (message : string) : option error :=
  match err with
  | None => None
  | Some e => Some (withMessage message e)
  end.

(** ** Package durationpb (google.golang.org/protobuf)

    A [time.Duration] is a count of nanoseconds.  [New] splits it into
    seconds and nanoseconds with Go's truncating division. *)
Record Duration := mkDuration { Seconds : Z; Nanos : Z }.

Definition durationpb_New (d : Z) : Duration :=
  let nanos := d in
  let secs := Z.quot nanos 1000000000 in
  let nanos := (nanos - secs * 1000000000)%Z in
  {| Seconds := secs; Nanos := nanos |}.

(** The time span a [Duration] message stands for, in nanoseconds. *)
Definition Duration_nanoseconds (x : Duration) : Z :=
  (Seconds x * 1000000000 + Nanos x)%Z.

(** ** Package schema (k8s.io/apimachinery) *)
Record GroupVersionKind := mkGVK { Group : string; Version : string; Kind : string }.

Definition Empty (gvk : GroupVersionKind) : bool :=
  bool_decide (String.length (Group gvk) = 0)
  && bool_decide (String.length (Version gvk) = 0)
  && bool_decide (String.length (Kind gvk) = 0).

(** [gvk.GroupVersion().String()] *)
Definition GroupVersion_String (gvk : GroupVersionKind) : string :=
  if bool_decide (0 < String.length (Group gvk))
  then Group gvk +:+ "/" +:+ Version gvk
  else Version gvk.

(** ** Messages of package v1beta1 that carry no structured value

    Package [v1beta1] is generated code of this repository outside the
    sources at hand; its messages are given with the fields that package
    response reads and writes. *)

(** Modelled from the spec: the readiness enumeration of a response. *)
Inductive Ready := Ready_READY_UNSPECIFIED | Ready_READY_TRUE | Ready_READY_FALSE.

(** Modelled from the spec: the severity of a result. *)
Inductive Severity :=
  | Severity_SEVERITY_UNSPECIFIED
  | Severity_SEVERITY_FATAL
  | Severity_SEVERITY_WARNING
  | Severity_SEVERITY_NORMAL.

(** Modelled from the spec: a result, a severity with a message. *)
Record Result := mkResult { Res_Severity : Severity; Res_Message : string }.

(** Modelled from the spec: the label set of a selector. *)
Record MatchLabels := mkMatchLabels { Labels : gomap string }.

(** Modelled from the spec: the oneof [Match] of a ResourceSelector, a
    match by name or a match by labels. *)
Inductive isResourceSelector_Match :=
  | ResourceSelector_MatchName (MatchName : string)
  | ResourceSelector_MatchLabels (MatchLabels : option MatchLabels).

(** Modelled from the spec: a resource selector. *)
Record ResourceSelector := mkResourceSelector {
  Sel_ApiVersion : string;
  Sel_Kind : string;
  Sel_Match : option isResourceSelector_Match
}.

(** Modelled from the spec: the requirements of a response, selectors
    keyed by the id of the request. *)
Record Requirements := mkRequirements { ExtraResources : gomap ResourceSelector }.

(** Modelled from the spec: the meta of a response, tag and ttl. *)
Record ResponseMeta := mkResponseMeta { Rsp_Tag : string; Rsp_Ttl : option Duration }.

(** Modelled from the spec: the meta of a request, of which [To] reads
    the tag. *)
Record RequestMeta := mkRequestMeta { Req_Tag : string }.

(** ** Package resource *)

(** Modelled from the spec: type [resource.Ready] is declared in package
    [resource], outside the sources at hand; the spec gives it as a
    tri-state (unspecified/false/true). *)
Inductive resource_Ready := ReadyUnspecified | ReadyTrue | ReadyFalse.

(** Modelled from the spec: [resource.ConnectionDetails], of the same
    package, a map from a key to bytes. *)
Definition ConnectionDetails := gomap (list Byte.byte).

Section Model.

(** [structpb.Value], the bodies handed to the setters ([runtime.Object])
    and the arguments of a format ([any]) are opaque to this package. *)
Context {Value Object any : Type}.

(** The verb [%T] of package fmt: the name of the type of a body. *)
Variable TypeOf : Object -> string.

(** [fmt.Sprintf] *)
Variable Sprintf : string -> list any -> string.

(** ** Package structpb *)
Record Struct := mkStruct { Fields : gomap Value }.

(** [resource.AsStruct], from package [resource] of this repository, which
    is not part of the sources at hand: it gives a structured value and
    an error, the error being nil when the body serializes. *)
Variable AsStruct : Object -> option Struct * option error.

(** Modelled from the spec: [resource.Composite], declared in package
    [resource] outside the sources at hand: a body with connection
    details. *)
Record Composite := mkComposite {
  XR_Resource : Object;
  XR_ConnectionDetails : ConnectionDetails
}.

(** Modelled from the spec: [resource.DesiredComposed], of the same
    package: a body with a readiness. *)
Record DesiredComposed := mkDesiredComposed {
  DCD_Resource : Object;
  DCD_Ready : resource_Ready
}.

(** Modelled from the spec: message [v1beta1.Resource]. *)
Record Resource := mkResource {
  R_Resource : option Struct;
  R_ConnectionDetails : ConnectionDetails;
  R_Ready : Ready
}.

(** Modelled from the spec: message [v1beta1.State], the desired
    composite and the desired composed resources keyed by name. *)
Record State := mkState {
  Composite_ : option Resource;
  Resources : gomap Resource
}.

(** Modelled from the spec: message [v1beta1.RunFunctionRequest], with
    the fields that [To] reads. *)
Record RunFunctionRequest := mkRequest {
  Req_Meta : option RequestMeta;
  Req_Desired : option State;
  Req_Context : option Struct
}.

(** Modelled from the spec: message [v1beta1.RunFunctionResponse]. *)
Record RunFunctionResponse := mkResponse {
  Meta : option ResponseMeta;
  Desired : option State;
  Results : option (list Result);
  Context_ : option Struct;
  Requirements_ : option Requirements
}.

(** Modelled from the spec: the getters of package [v1beta1] and of
    [structpb.Struct].  Generated getters are nil-safe: on a nil receiver
    they give the zero value of the field. *)
Definition Req_GetMeta (x : option RunFunctionRequest) : option RequestMeta :=
  x ≫= Req_Meta.
Definition Req_GetDesired (x : option RunFunctionRequest) : option State :=
  x ≫= Req_Desired.
Definition Req_GetContext (x : option RunFunctionRequest) : option Struct :=
  x ≫= Req_Context.
Definition Meta_GetTag (x : option RequestMeta) : string :=
  match x with Some m => Req_Tag m | None => "" end.
Definition GetFields (x : option Struct) : gomap Value :=
  x ≫= Fields.
Definition GetResources (x : option State) : gomap Resource :=
  x ≫= Resources.
Definition GetExtraResources (x : option Requirements) : gomap ResourceSelector :=
  x ≫= ExtraResources.
Definition GetContext (rsp : RunFunctionResponse) : option Struct := Context_ rsp.
Definition GetDesired (rsp : RunFunctionResponse) : option State := Desired rsp.
Definition GetRequirements (rsp : RunFunctionResponse) : option Requirements :=
  Requirements_ rsp.
Definition GetResults (rsp : RunFunctionResponse) : option (list Result) :=
  Results rsp.

(** Assignments to one field of the response, [rsp.F = x]. *)
Definition set_Context (rsp : RunFunctionResponse) (x : option Struct) :=
  {| Meta := Meta rsp; Desired := Desired rsp; Results := Results rsp;
     Context_ := x; Requirements_ := Requirements_ rsp |}.
Definition set_Desired (rsp : RunFunctionResponse) (x : option State) :=
  {| Meta := Meta rsp; Desired := x; Results := Results rsp;
     Context_ := Context_ rsp; Requirements_ := Requirements_ rsp |}.
Definition set_Results (rsp : RunFunctionResponse) (x : option (list Result)) :=
  {| Meta := Meta rsp; Desired := Desired rsp; Results := x;
     Context_ := Context_ rsp; Requirements_ := Requirements_ rsp |}.
Definition set_Requirements (rsp : RunFunctionResponse) (x : option Requirements) :=
  {| Meta := Meta rsp; Desired := Desired rsp; Results := Results rsp;
     Context_ := Context_ rsp; Requirements_ := x |}.

(** ** Package response *)

Definition DefaultTTL : Z := 1 * 60000000000.

Definition To (req : option RunFunctionRequest) (ttl : Z) : RunFunctionResponse :=
  {| Meta := Some {| Rsp_Tag := Meta_GetTag (Req_GetMeta req);
                     Rsp_Ttl := Some (durationpb_New ttl) |};
     Desired := Req_GetDesired req;
     Context_ := Req_GetContext req;
     Results := None;
     Requirements_ := None |}.

Definition SetContextKey (rsp : RunFunctionResponse) (key : string) (v : Value)
    : option RunFunctionResponse :=
  let rsp :=
    match GetFields (GetContext rsp) with
    | None => set_Context rsp (Some {| Fields := Some ∅ |})
    | Some _ => rsp
    end in
  (* rsp.Context.Fields[key] = v *)
  ctx ← Context_ rsp;
  fields ← map_assign (Fields ctx) key v;
  Some (set_Context rsp (Some {| Fields := fields |})).

Definition SetDesiredCompositeResource (rsp : RunFunctionResponse) (xr : Composite)
    : option (RunFunctionResponse * option error) :=
  let rsp :=
    match GetDesired rsp with
    | None => set_Desired rsp (Some {| Composite_ := None; Resources := None |})
    | Some _ => rsp
    end in
  let '(s, err) := AsStruct (XR_Resource xr) in
  (* rsp.Desired.Composite = &v1beta1.Resource{...} *)
  d ← Desired rsp;
  let rsp := set_Desired rsp (Some
    {| Composite_ := Some {| R_Resource := s;
                             R_ConnectionDetails := XR_ConnectionDetails xr;
                             R_Ready := Ready_READY_UNSPECIFIED |};
       Resources := Resources d |}) in
  Some (rsp, Wrapf err ("cannot convert " +:+ TypeOf (XR_Resource xr)
                          +:+ " to desired composite resource")).

(** [r := &v1beta1.Resource{Resource: s}] followed by the [switch] on
    [dcd.Ready], which has no default case. *)
Definition set_Ready (r : Resource) (x : Ready) : Resource :=
  {| R_Resource := R_Resource r;
     R_ConnectionDetails := R_ConnectionDetails r;
     R_Ready := x |}.

Definition composed_Resource (s : option Struct) (ready : resource_Ready) : Resource :=
  let r := {| R_Resource := s; R_ConnectionDetails := None;
              R_Ready := Ready_READY_UNSPECIFIED |} in
  match ready with
  | ReadyUnspecified => set_Ready r Ready_READY_UNSPECIFIED
  | ReadyFalse => set_Ready r Ready_READY_FALSE
  | ReadyTrue => set_Ready r Ready_READY_TRUE
  end.

(** The body of [for name, dcd := range dcds], over the entries of [dcds]
    in the order in which the loop visits them. *)
Fixpoint range_dcds (rsp : RunFunctionResponse)
    (dcds : list (string * DesiredComposed))
    : option (RunFunctionResponse * option error) :=
  match dcds with
  | [] => Some (rsp, None)
  | (name, dcd) :: rest =>
      let '(s, err) := AsStruct (DCD_Resource dcd) in
      match err with
      | Some e => Some (rsp, Some e)
      | None =>
          let r := composed_Resource s (DCD_Ready dcd) in
          (* rsp.Desired.Resources[string(name)] = r *)
          d ← Desired rsp;
          resources ← map_assign (Resources d) name r;
          range_dcds
            (set_Desired rsp (Some {| Composite_ := Composite_ d;
                                      Resources := resources |}))
            rest
      end
  end.

(** Go leaves the order in which [range] visits a map unspecified: any
    list of the entries of the map, each once, is a possible order. *)
Definition range_order (dcds : gmap string DesiredComposed)
    (order : list (string * DesiredComposed)) : Prop :=
  order ≡ₚ map_to_list dcds.

Definition SetDesiredComposedResources (rsp : RunFunctionResponse)
    (dcds : list (string * DesiredComposed))
    : option (RunFunctionResponse * option error) :=
  let rsp :=
    match GetDesired rsp with
    | None => set_Desired rsp (Some {| Composite_ := None; Resources := None |})
    | Some _ => rsp
    end in
  rsp ← match GetResources (GetDesired rsp) with
        | None =>
            (* rsp.Desired.Resources = map[string]*v1beta1.Resource{} *)
            d ← Desired rsp;
            Some (set_Desired rsp (Some {| Composite_ := Composite_ d;
                                           Resources := Some ∅ |}))
        | Some _ => Some rsp
        end;
  range_dcds rsp dcds.

(** The last statements of both [RequestExtraResourceBy...] functions:
    the two allocations and the assignment of the selector. *)
Definition store_selector (rsp : RunFunctionResponse) (id : string)
    (sel : ResourceSelector) : option RunFunctionResponse :=
  let rsp :=
    match GetRequirements rsp with
    | None => set_Requirements rsp (Some {| ExtraResources := None |})
    | Some _ => rsp
    end in
  rsp ← match GetExtraResources (GetRequirements rsp) with
        | None =>
            (* rsp.Requirements.ExtraResources = make(...) *)
            _ ← Requirements_ rsp;
            Some (set_Requirements rsp (Some {| ExtraResources := Some ∅ |}))
        | Some _ => Some rsp
        end;
  (* rsp.Requirements.ExtraResources[id] = &v1beta1.ResourceSelector{...} *)
  rq ← Requirements_ rsp;
  extra ← map_assign (ExtraResources rq) id sel;
  Some (set_Requirements rsp (Some {| ExtraResources := extra |})).

Definition RequestExtraResourceByName (rsp : RunFunctionResponse)
    (id name : string) (gvk : GroupVersionKind)
    : option (RunFunctionResponse * option error) :=
  if Empty gvk then
    Some (rsp, New "cannot request extra resource by name with empty GVK")
  else if bool_decide (id = "") then
    Some (rsp, New "cannot request extra resource by name with empty ID")
  else if bool_decide (name = "") then
    Some (rsp, New "cannot request extra resource by empty name with empty name")
  else
    rsp ← store_selector rsp id
            {| Sel_ApiVersion := GroupVersion_String gvk;
               Sel_Kind := Kind gvk;
               Sel_Match := Some (ResourceSelector_MatchName name) |};
    Some (rsp, None).

Definition RequestExtraResourceByLabels (rsp : RunFunctionResponse)
    (id : string) (labels : gomap string) (gvk : GroupVersionKind)
    : option (RunFunctionResponse * option error) :=
  if Empty gvk then
    Some (rsp, New "cannot request extra resource by name with empty GVK")
  else if bool_decide (id = "") then
    Some (rsp, New "cannot request extra resource by name with empty ID")
  else
    rsp ← store_selector rsp id
            {| Sel_ApiVersion := GroupVersion_String gvk;
               Sel_Kind := Kind gvk;
               Sel_Match := Some (ResourceSelector_MatchLabels
                                    (Some {| Labels := labels |})) |};
    Some (rsp, None).

(** The first statement of every result appender. *)
Definition ensure_Results (rsp : RunFunctionResponse) : RunFunctionResponse :=
  match GetResults rsp with
  | None => set_Results rsp (Some [])
  | Some _ => rsp
  end.

Definition Fatal (rsp : RunFunctionResponse) (err : error) : RunFunctionResponse :=
  let rsp := ensure_Results rsp in
  set_Results rsp (append (GetResults rsp)
    {| Res_Severity := Severity_SEVERITY_FATAL; Res_Message := Error err |}).

Definition Warning (rsp : RunFunctionResponse) (err : error) : RunFunctionResponse :=
  let rsp := ensure_Results rsp in
  set_Results rsp (append (GetResults rsp)
    {| Res_Severity := Severity_SEVERITY_WARNING; Res_Message := Error err |}).

Definition Normal (rsp : RunFunctionResponse) (message : string) : RunFunctionResponse :=
  let rsp := ensure_Results rsp in
  set_Results rsp (append (GetResults rsp)
    {| Res_Severity := Severity_SEVERITY_NORMAL; Res_Message := message |}).

Definition Normalf (rsp : RunFunctionResponse) (format : string) (a : list any)
    : RunFunctionResponse :=
  Normal rsp (Sprintf format a).

(** ** Sequences of calls

    A caller threads one response through a sequence of builder calls.  An
    error returned by a call does not undo what the call wrote, so the
    next call works on the response as the failed call left it. *)
Inductive appender : Type :=
  | AppendFatal (err : error)
  | AppendWarning (err : error)
  | AppendNormal (message : string)
  | AppendNormalf (format : string) (a : list any).

Definition run_appender (rsp : RunFunctionResponse) (c : appender)
    : RunFunctionResponse :=
  match c with
  | AppendFatal err => Fatal rsp err
  | AppendWarning err => Warning rsp err
  | AppendNormal message => Normal rsp message
  | AppendNormalf format a => Normalf rsp format a
  end.

Definition run_appenders (rsp : RunFunctionResponse) (cs : list appender)
    : RunFunctionResponse :=
  foldl run_appender rsp cs.

Inductive call : Type :=
  | CallSetContextKey (key : string) (v : Value)
  | CallSetDesiredCompositeResource (xr : Composite)
  | CallSetDesiredComposedResources (dcds : list (string * DesiredComposed))
  | CallRequestExtraResourceByName (id name : string) (gvk : GroupVersionKind)
  | CallRequestExtraResourceByLabels (id : string) (labels : gomap string)
      (gvk : GroupVersionKind)
  | CallAppend (c : appender).

Definition run_call (rsp : RunFunctionResponse) (c : call)
    : option (RunFunctionResponse * option error) :=
  match c with
  | CallSetContextKey key v => rsp ← SetContextKey rsp key v; Some (rsp, None)
  | CallSetDesiredCompositeResource xr => SetDesiredCompositeResource rsp xr
  | CallSetDesiredComposedResources dcds => SetDesiredComposedResources rsp dcds
  | CallRequestExtraResourceByName id name gvk =>
      RequestExtraResourceByName rsp id name gvk
  | CallRequestExtraResourceByLabels id labels gvk =>
      RequestExtraResourceByLabels rsp id labels gvk
  | CallAppend c => Some (run_appender rsp c, None)
  end.

Fixpoint run_calls (rsp : RunFunctionResponse) (cs : list call)
    : option RunFunctionResponse :=
  match cs with
  | [] => Some rsp
  | c :: cs => r ← run_call rsp c; run_calls r.1 cs
  end.

(** ** What a response holds *)

Definition context_fields (rsp : RunFunctionResponse) : gmap string Value :=
  entries (GetFields (GetContext rsp)).

Definition desired_composite (rsp : RunFunctionResponse) : option Resource :=
  GetDesired rsp ≫= Composite_.

Definition desired_resources (rsp : RunFunctionResponse) : gmap string Resource :=
  entries (GetResources (GetDesired rsp)).

Definition extra_resources (rsp : RunFunctionResponse) : gmap string ResourceSelector :=
  entries (GetExtraResources (GetRequirements rsp)).

Definition results (rsp : RunFunctionResponse) : list Result :=
  elems (GetResults rsp).

(** The keys that a call assigns in each of the three maps. *)
Definition context_keys (c : call) : list string :=
  match c with
  | CallSetContextKey key _ => [key]
  | _ => []
  end.

Definition resource_names (c : call) : list string :=
  match c with
  | CallSetDesiredComposedResources dcds => dcds.*1
  | _ => []
  end.

Definition requirement_ids (c : call) : list string :=
  match c with
  | CallRequestExtraResourceByName id _ _ => [id]
  | CallRequestExtraResourceByLabels id _ _ => [id]
  | _ => []
  end.

(** The entry that an appender is to add: its severity and the message
    it was given. *)
Definition appended_Result (c : appender) : Result :=
  match c with
  | AppendFatal err =>
      {| Res_Severity := Severity_SEVERITY_FATAL; Res_Message := Error err |}
  | AppendWarning err =>
      {| Res_Severity := Severity_SEVERITY_WARNING; Res_Message := Error err |}
  | AppendNormal message =>
      {| Res_Severity := Severity_SEVERITY_NORMAL; Res_Message := message |}
  | AppendNormalf format a =>
      {| Res_Severity := Severity_SEVERITY_NORMAL;
         Res_Message := Sprintf format a |}
  end.

(** For [SetDesiredComposedResources]: whether a body serializes, the
    resource stored for an entry, and the map after storing a list of
    entries one after the other. *)
Definition serializes (dcd : DesiredComposed) : Prop :=
  (AsStruct (DCD_Resource dcd)).2 = None.

Definition stored_Resource (dcd : DesiredComposed) : Resource :=
  composed_Resource (AsStruct (DCD_Resource dcd)).1 (DCD_Ready dcd).

Definition store_all (dcds : list (string * DesiredComposed))
    (m : gmap string Resource) : gmap string Resource :=
  foldl (λ m nd, <[nd.1 := stored_Resource nd.2]> m) m dcds.

(** The entries that the loop stores before it meets a body that does
    not serialize, and the error of that body. *)
Fixpoint serialized_prefix (dcds : list (string * DesiredComposed))
    : list (string * DesiredComposed) :=
  match dcds with
  | [] => []
  | nd :: rest =>
      match (AsStruct (DCD_Resource nd.2)).2 with
      | Some _ => []
      | None => nd :: serialized_prefix rest
      end
  end.

Fixpoint first_failure (dcds : list (string * DesiredComposed)) : option error :=
  match dcds with
  | [] => None
  | nd :: rest =>
      match (AsStruct (DCD_Resource nd.2)).2 with
      | Some e => Some e
      | None => first_failure rest
      end
  end.

(** Whether a call assigns the desired composite resource. *)
Definition sets_composite (c : call) : bool :=
  match c with
  | CallSetDesiredCompositeResource _ => true
  | _ => false
  end.

(** [preserved cs rsp rsp']: response [rsp'] holds all that [rsp] held,
    but for what the calls [cs] assign. *)
Definition preserved (cs : list call) (rsp rsp' : RunFunctionResponse) : Prop :=
  Meta rsp' = Meta rsp
  ∧ (∀ k, k ∉ cs ≫= context_keys →
       context_fields rsp' !! k = context_fields rsp !! k)
  ∧ (∀ n, n ∉ cs ≫= resource_names →
       desired_resources rsp' !! n = desired_resources rsp !! n)
  ∧ (∀ i, i ∉ cs ≫= requirement_ids →
       extra_resources rsp' !! i = extra_resources rsp !! i)
  ∧ (Forall (λ c, sets_composite c = false) cs →
       desired_composite rsp' = desired_composite rsp)
  ∧ results rsp `prefix_of` results rsp'
  ∧ dom (context_fields rsp) ⊆ dom (context_fields rsp')
  ∧ dom (desired_resources rsp) ⊆ dom (desired_resources rsp')
  ∧ dom (extra_resources rsp) ⊆ dom (extra_resources rsp')
  ∧ (is_Some (desired_composite rsp) → is_Some (desired_composite rsp')).

End Model.

Arguments Struct : clear implicits.
Arguments Resource : clear implicits.
Arguments State : clear implicits.
Arguments Composite : clear implicits.
Arguments DesiredComposed : clear implicits.
Arguments RunFunctionRequest : clear implicits.
Arguments RunFunctionResponse : clear implicits.
Arguments appender : clear implicits.
Arguments call : clear implicits.

(** ** An instance of the opaque parts, for examples

    Values are texts, a body knows the name of its type and whether it
    serializes, and a format is followed by its arguments. *)
Record body := mkBody { body_type : string; body_serializable : bool }.

Definition body_AsStruct (o : body) : option (Struct string) * option error :=
  if body_serializable o
  then (Some {| Fields := Some ∅ |}, None)
  else (None, Some (errorString "json: unsupported value")).

Definition words_Sprintf (format : string) (a : list string) : string :=
  String.concat " " (format :: a).

Definition widget : body :=
  {| body_type := "*composed.Unstructured"; body_serializable := true |}.

Definition broken : body :=
  {| body_type := "*composed.Unstructured"; body_serializable := false |}.

(** [&v1beta1.RunFunctionResponse{}] *)
Definition blank : RunFunctionResponse string :=
  {| Meta := None; Desired := None; Results := None; Context_ := None;
     Requirements_ := None |}.

(** A response that already holds one result. *)
Definition reported : RunFunctionResponse string :=
  {| Meta := None; Desired := None;
     Results := Some [ {| Res_Severity := Severity_SEVERITY_WARNING;
                          Res_Message := "earlier" |} ];
     Context_ := None; Requirements_ := None |}.

Definition example_gvk : GroupVersionKind :=
  {| Group := "example.org"; Version := "v1"; Kind := "Widget" |}.

(** A response whose context already holds a value. *)
Definition seeded : RunFunctionResponse string :=
  {| Meta := None; Desired := None; Results := None;
     Context_ := Some {| Fields := Some {[ "old" := "kept" ]} |};
     Requirements_ := None |}.

(** Three desired composed resources; the body of the second does not
    serialize. *)
Definition three_entries : list (string * DesiredComposed body) :=
  [ ("a", {| DCD_Resource := widget; DCD_Ready := ReadyTrue |});
    ("b", {| DCD_Resource := broken; DCD_Ready := ReadyFalse |});
    ("c", {| DCD_Resource := widget; DCD_Ready := ReadyUnspecified |}) ].

(** Two desired composed resources whose bodies serialize, in two orders. *)
Definition two_entries : list (string * DesiredComposed body) :=
  [ ("a", {| DCD_Resource := widget; DCD_Ready := ReadyTrue |});
    ("c", {| DCD_Resource := widget; DCD_Ready := ReadyUnspecified |}) ].

Definition two_entries_swapped : list (string * DesiredComposed body) :=
  [ ("c", {| DCD_Resource := widget; DCD_Ready := ReadyUnspecified |});
    ("a", {| DCD_Resource := widget; DCD_Ready := ReadyTrue |}) ].

Definition broken_xr : Composite body :=
  {| XR_Resource := {| body_type := "*composite.Unstructured";
                       body_serializable := false |};
     XR_ConnectionDetails := Some ∅ |}.

Definition example_request : RunFunctionRequest string :=
  {| Req_Meta := Some {| Req_Tag := "abc" |};
     Req_Desired := None;
     Req_Context := Some {| Fields := Some ∅ |} |}.

(** ** The builders never panic: closed forms *)

Section Properties.

Set Default Proof Using "Type".

Context {Value Object any : Type}.
Variable TypeOf : Object -> string.
Variable Sprintf : string -> list any -> string.
Variable AsStruct : Object -> option (Struct Value) * option error.

Implicit Types (rsp : RunFunctionResponse Value) (xr : Composite Object)
  (dcd : DesiredComposed Object) (dcds : list (string * DesiredComposed Object)).

Lemma SetContextKey_eq rsp key v :
  SetContextKey rsp key v =
    Some (set_Context rsp (Some {| Fields := Some (<[key := v]> (context_fields rsp)) |})).
Proof.
  unfold SetContextKey, context_fields, GetContext.
  destruct rsp as [m d r [[[f|]]|] q]; reflexivity.
Qed.

Lemma store_selector_eq rsp id sel :
  store_selector rsp id sel =
    Some (set_Requirements rsp
            (Some {| ExtraResources := Some (<[id := sel]> (extra_resources rsp)) |})).
Proof.
  unfold store_selector, extra_resources, GetRequirements.
  destruct rsp as [m d r c [[[f|]]|]]; reflexivity.
Qed.

Lemma SetDesiredCompositeResource_eq rsp xr :
  SetDesiredCompositeResource TypeOf AsStruct rsp xr =
    Some (set_Desired rsp (Some
            {| Composite_ := Some {| R_Resource := (AsStruct (XR_Resource xr)).1;
                                     R_ConnectionDetails := XR_ConnectionDetails xr;
                                     R_Ready := Ready_READY_UNSPECIFIED |};
               Resources := GetResources (GetDesired rsp) |}),
          Wrapf (AsStruct (XR_Resource xr)).2
            ("cannot convert " +:+ TypeOf (XR_Resource xr)
               +:+ " to desired composite resource")).
Proof.
  unfold SetDesiredCompositeResource, GetDesired.
  destruct (AsStruct (XR_Resource xr)) as [s err].
  destruct rsp as [m [d|] r c q]; reflexivity.
Qed.

Lemma range_dcds_eq dcds : ∀ rsp d m,
  Desired rsp = Some d → Resources d = Some m →
  range_dcds AsStruct rsp dcds =
    Some (set_Desired rsp (Some {| Composite_ := Composite_ d;
                                   Resources := Some (store_all AsStruct (serialized_prefix AsStruct dcds) m) |}),
          first_failure AsStruct dcds).
Proof.
  induction dcds as [|[name dcd] rest IH]; intros rsp d m Hd Hm.
  - destruct rsp, d; simpl in *; by subst.
  - simpl. destruct (AsStruct (DCD_Resource dcd)) as [s [e|]] eqn:Hs; simpl.
    + destruct rsp, d; simpl in *; by subst.
    + rewrite Hd; simpl. rewrite Hm; simpl.
      erewrite IH; [|reflexivity..]. simpl.
      unfold stored_Resource. by rewrite Hs.
Qed.

Lemma SetDesiredComposedResources_eq rsp dcds :
  SetDesiredComposedResources AsStruct rsp dcds =
    Some (set_Desired rsp (Some
            {| Composite_ := desired_composite rsp;
               Resources := Some (store_all AsStruct (serialized_prefix AsStruct dcds)
                                    (desired_resources rsp)) |}),
          first_failure AsStruct dcds).
Proof.
  unfold SetDesiredComposedResources, desired_composite, desired_resources, GetDesired.
  destruct rsp as [mt [[cp [m|]]|] r c q]; simpl;
    (erewrite range_dcds_eq; [ | reflexivity..]); reflexivity.
Qed.

(** Reading back what the closed forms store. *)
Lemma context_fields_set rsp m :
  context_fields (set_Context rsp (Some {| Fields := Some m |})) = m.
Proof. reflexivity. Qed.

Lemma extra_resources_set rsp m :
  extra_resources (set_Requirements rsp (Some {| ExtraResources := Some m |})) = m.
Proof. reflexivity. Qed.

Lemma desired_resources_set rsp c m :
  desired_resources
    (set_Desired rsp (Some {| Composite_ := c; Resources := Some m |})) = m.
Proof. reflexivity. Qed.

(** ** Texts *)

Lemma string_app_cons x (a b : string) : String x a +:+ b = String x (a +:+ b).
Proof. reflexivity. Qed.

Lemma string_app_assoc (a b c : string) : (a +:+ b) +:+ c = a +:+ b +:+ c.
Proof. induction a as [|x a IH]; [done|]. rewrite !string_app_cons. by rewrite IH. Qed.

Lemma substring_prefix_append (t r : string) :
  String.substring 0 (String.length t) (t +:+ r) = t.
Proof.
  induction t as [|a t IH].
  - by destruct r.
  - rewrite string_app_cons. simpl. by rewrite IH.
Qed.

Lemma substring_skip_append (p t : string) (n : nat) :
  String.substring (String.length p) n (p +:+ t) = String.substring 0 n t.
Proof. induction p as [|a p IH]; [done|]. by rewrite string_app_cons. Qed.

Lemma mentions_infix (p t r : string) : mentions (p +:+ t +:+ r) t = true.
Proof.
  unfold mentions. destruct (String.index 0 t (p +:+ t +:+ r)) eqn:Hi; [done|].
  exfalso. destruct t as [|a t].
  - apply String.index_correct4 in Hi. lia.
  - eapply (String.index_correct3 0 (String.length p)); [exact Hi|done|lia|].
    by rewrite substring_skip_append, substring_prefix_append.
Qed.

Lemma Unwrap_irreflexive (e : error) : Unwrap e ≠ Some e.
Proof.
  induction e as [s|msg cause IH]; simpl; [done|].
  intros [= Heq]. apply IH. by rewrite Heq at 1.
Qed.

(** ** Storing a list of entries *)

Lemma store_all_lookup_notin dcds : ∀ (m : gmap string (Resource Value)) n,
  n ∉ dcds.*1 → store_all AsStruct dcds m !! n = m !! n.
Proof.
  induction dcds as [|[n' d'] rest IH]; intros m n Hn; [done|].
  simpl in *. apply not_elem_of_cons in Hn as [Hne Hn].
  unfold store_all in *. simpl. rewrite IH by done. by rewrite lookup_insert_ne.
Qed.

Lemma store_all_lookup_in dcds : ∀ (m : gmap string (Resource Value)) n d,
  NoDup dcds.*1 → (n, d) ∈ dcds →
  store_all AsStruct dcds m !! n = Some (stored_Resource AsStruct d).
Proof.
  induction dcds as [|[n' d'] rest IH]; intros m n d Hnd Hin.
  - by apply elem_of_nil in Hin.
  - simpl in Hnd. apply NoDup_cons in Hnd as [Hfresh Hnd].
    apply elem_of_cons in Hin as [Heq|Hin].
    + injection Heq as -> ->. unfold store_all; simpl.
      fold (store_all AsStruct rest (<[n' := stored_Resource AsStruct d']> m)).
      rewrite store_all_lookup_notin by done. by rewrite lookup_insert_eq.
    + unfold store_all; simpl. by apply IH.
Qed.

Lemma store_all_dom dcds : ∀ (m : gmap string (Resource Value)),
  dom m ⊆ dom (store_all AsStruct dcds m).
Proof.
  induction dcds as [|[n' d'] rest IH]; intros m; [done|].
  unfold store_all in *; simpl. etrans; [|apply IH].
  apply dom_insert_subseteq.
Qed.

Lemma serialized_prefix_prefix dcds :
  serialized_prefix AsStruct dcds `prefix_of` dcds.
Proof.
  induction dcds as [|nd rest IH]; simpl; [done|].
  destruct (AsStruct (DCD_Resource nd.2)).2; [apply prefix_nil|].
  by apply prefix_cons.
Qed.

Lemma serialized_prefix_app pre (bad : string * DesiredComposed Object) post :
  Forall (λ nd, serializes AsStruct nd.2) pre →
  ¬ serializes AsStruct bad.2 →
  serialized_prefix AsStruct (pre ++ bad :: post) = pre.
Proof.
  unfold serializes. induction 1 as [|nd pre Hnd _ IH]; intros Hbad; simpl.
  - by destruct (AsStruct (DCD_Resource bad.2)).2.
  - rewrite Hnd. f_equal. by apply IH.
Qed.

Lemma serialized_prefix_all pre :
  Forall (λ nd, serializes AsStruct nd.2) pre →
  serialized_prefix AsStruct pre = pre ∧ first_failure AsStruct pre = None.
Proof.
  unfold serializes. induction 1 as [|nd pre Hnd _ [IH1 IH2]]; simpl; [done|].
  rewrite Hnd. by rewrite IH1.
Qed.

Lemma first_failure_app pre (bad : string * DesiredComposed Object) post e :
  Forall (λ nd, serializes AsStruct nd.2) pre →
  (AsStruct (DCD_Resource bad.2)).2 = Some e →
  first_failure AsStruct (pre ++ bad :: post) = Some e.
Proof.
  unfold serializes. induction 1 as [|nd pre Hnd _ IH]; intros Hbad; simpl.
  - by rewrite Hbad.
  - rewrite Hnd. by apply IH.
Qed.

(** ** Initialize *)

Lemma durationpb_New_nanoseconds (d : Z) :
  Duration_nanoseconds (durationpb_New d) = d.
Proof. unfold Duration_nanoseconds, durationpb_New; simpl; lia. Qed.

Lemma durationpb_New_Nanos (d : Z) :
  (Z.abs (Nanos (durationpb_New d)) < 1000000000)%Z.
Proof.
  unfold durationpb_New; simpl.
  pose proof (Z.quot_rem' d 1000000000) as Hqr.
  pose proof (Z.rem_bound_abs d 1000000000) as Hb.
  replace (d - d ÷ 1000000000 * 1000000000)%Z with (Z.rem d 1000000000) by lia.
  lia.
Qed.

(** C1.  For every request R and every ttl T, the response that [To]
    builds carries the tag of R's meta, R's desired state, R's context and
    a ttl that stands for T.  [To] is a total function: it has no failure
    mode, also for a nil request, whose getters give zero values. *)
Theorem To_echoes_request (R : RunFunctionRequest Value) (T : Z) :
  (Rsp_Tag <$> Meta (To (Some R) T) = Some (Meta_GetTag (Req_Meta R))
   ∧ Desired (To (Some R) T) = Req_Desired R
   ∧ Context_ (To (Some R) T) = Req_Context R
   ∧ Meta (To (Some R) T) ≫= Rsp_Ttl = Some (durationpb_New T)
   ∧ Duration_nanoseconds (durationpb_New T) = T
   ∧ (Z.abs (Nanos (durationpb_New T)) < 1000000000)%Z)
  ∧ To (None : option (RunFunctionRequest Value)) T =
      {| Meta := Some {| Rsp_Tag := ""; Rsp_Ttl := Some (durationpb_New T) |};
         Desired := None; Results := None; Context_ := None;
         Requirements_ := None |}.
Proof.
  repeat split; try reflexivity.
  - apply durationpb_New_nanoseconds.
  - apply durationpb_New_Nanos.
Qed.

(** ** Requirements *)

(** C2.  With an empty id or an empty GVK, both
    [RequestExtraResourceByName] and [RequestExtraResourceByLabels] return
    an error and the response they were given, in which nothing was
    allocated or written. *)
Theorem RequestExtraResource_rejects_empty_id_or_GVK
    (rsp : RunFunctionResponse Value) (id name : string) (labels : gomap string)
    (gvk : GroupVersionKind) :
  id = "" ∨ Empty gvk = true →
  (∃ e, RequestExtraResourceByName rsp id name gvk = Some (rsp, Some e))
  ∧ (∃ e, RequestExtraResourceByLabels rsp id labels gvk = Some (rsp, Some e)).
Proof.
  intros H. unfold RequestExtraResourceByName, RequestExtraResourceByLabels, New.
  destruct (Empty gvk) eqn:Hg; [by eauto|].
  destruct H as [->|?]; [|done].
  rewrite bool_decide_eq_true_2 by done. by eauto.
Qed.

(** C8.  [RequestExtraResourceByName] returns an error for an empty name
    and gives back the response untouched; an empty label set does not
    make [RequestExtraResourceByLabels] fail: with an id and a GVK it
    returns nil and has registered, under the id, a selector with the
    apiVersion and kind of the GVK and a label match without labels. *)
Theorem empty_name_rejected_empty_labels_accepted
    (rsp : RunFunctionResponse Value) (id : string) (labels : gomap string)
    (gvk : GroupVersionKind) :
  (∃ e, RequestExtraResourceByName rsp id "" gvk = Some (rsp, Some e))
  ∧ (entries labels = ∅ → id ≠ "" → Empty gvk = false →
     ∃ rsp',
       RequestExtraResourceByLabels rsp id labels gvk = Some (rsp', None)
       ∧ extra_resources rsp' !! id =
           Some {| Sel_ApiVersion := GroupVersion_String gvk;
                   Sel_Kind := Kind gvk;
                   Sel_Match := Some (ResourceSelector_MatchLabels
                                        (Some {| Labels := labels |})) |}
       ∧ (∀ i, i ≠ id → extra_resources rsp' !! i = extra_resources rsp !! i)).
Proof.
  split.
  - unfold RequestExtraResourceByName, New.
    destruct (Empty gvk); [by eauto|].
    destruct (bool_decide (id = "")); [by eauto|].
    rewrite bool_decide_eq_true_2 by done. by eauto.
  - intros _ Hid Hg. unfold RequestExtraResourceByLabels.
    rewrite Hg, bool_decide_eq_false_2 by done.
    rewrite store_selector_eq. simpl. eexists; split; [reflexivity|].
    rewrite extra_resources_set. split.
    + by rewrite lookup_insert_eq.
    + intros i Hi. by rewrite lookup_insert_ne.
Qed.

(** ** Context *)

(** C5.  Two calls of [SetContextKey] with different keys leave both
    values in the context; two calls with the same key leave the later
    value there, and the second call does not change the size of the
    context map.  Neither call can fail. *)
Theorem SetContextKey_twice
    (rsp : RunFunctionResponse Value) (k1 k2 : string) (v1 v2 : Value) :
  (k1 ≠ k2 →
   ∃ r1 r2,
     SetContextKey rsp k1 v1 = Some r1 ∧ SetContextKey r1 k2 v2 = Some r2
     ∧ context_fields r2 !! k1 = Some v1 ∧ context_fields r2 !! k2 = Some v2)
  ∧ (∃ r1 r2,
       SetContextKey rsp k1 v1 = Some r1 ∧ SetContextKey r1 k1 v2 = Some r2
       ∧ context_fields r2 !! k1 = Some v2
       ∧ size (context_fields r2) = size (context_fields r1)).
Proof.
  split; [intros Hne|]; do 2 eexists; rewrite !SetContextKey_eq;
    (split; [reflexivity|]); (split; [reflexivity|]);
    rewrite !context_fields_set.
  - by rewrite lookup_insert_ne, !lookup_insert_eq.
  - rewrite insert_insert_eq, lookup_insert_eq.
    split; [reflexivity|]. by rewrite !map_size_insert.
Qed.

(** ** Desired composed resources *)

(** C7.  The switch on the readiness of a desired composed resource maps
    [ReadyUnspecified] to [READY_UNSPECIFIED], [ReadyFalse] to
    [READY_FALSE] and [ReadyTrue] to [READY_TRUE]; it covers every variant,
    and the resource that [SetDesiredComposedResources] stores for an entry
    carries the readiness so mapped. *)
Theorem readiness_mapping
    (rsp : RunFunctionResponse Value) (name : string) (dcd : DesiredComposed Object) :
  (∀ s : option (Struct Value),
        R_Ready (composed_Resource s ReadyUnspecified) = Ready_READY_UNSPECIFIED
        ∧ R_Ready (composed_Resource s ReadyFalse) = Ready_READY_FALSE
        ∧ R_Ready (composed_Resource s ReadyTrue) = Ready_READY_TRUE)
  ∧ (∀ x, x = ReadyUnspecified ∨ x = ReadyFalse ∨ x = ReadyTrue)
  ∧ (serializes AsStruct dcd →
     ∃ rsp' r,
       SetDesiredComposedResources AsStruct rsp [(name, dcd)] = Some (rsp', None)
       ∧ desired_resources rsp' !! name = Some r
       ∧ R_Resource r = (AsStruct (DCD_Resource dcd)).1
       ∧ R_Ready r = R_Ready (composed_Resource (R_Resource r) (DCD_Ready dcd))).
Proof.
  split; [done|]. split; [intros []; auto|].
  intros Hs. rewrite SetDesiredComposedResources_eq. simpl.
  unfold serializes in Hs. rewrite Hs. simpl.
  do 2 eexists. split; [reflexivity|].
  rewrite desired_resources_set. simpl. rewrite lookup_insert_eq.
  split; [reflexivity|]. unfold stored_Resource.
  by destruct (DCD_Ready dcd).
Qed.

(** C4.  For every response and every input mapping, whatever the order
    in which the loop visits the mapping: [SetDesiredComposedResources]
    returns, and names outside the mapping keep their entry.  When the
    loop meets a body that does not serialize after bodies that do, it
    returns the error of that body; the response is the one that storing
    only the earlier entries gives, so nothing after them was processed;
    the earlier entries are in the desired resources; every other name
    has the entry it had before. *)
Theorem SetDesiredComposedResources_fails_fast
    (rsp : RunFunctionResponse Value)
    (input : gmap string (DesiredComposed Object))
    (order : list (string * DesiredComposed Object)) :
  range_order input order →
  ∃ rsp' err,
    SetDesiredComposedResources AsStruct rsp order = Some (rsp', err)
    ∧ (∀ n, input !! n = None →
         desired_resources rsp' !! n = desired_resources rsp !! n)
    ∧ (∀ pre name dcd post e,
         order = pre ++ (name, dcd) :: post →
         Forall (λ nd, serializes AsStruct nd.2) pre →
         (AsStruct (DCD_Resource dcd)).2 = Some e →
         err = Some e
         ∧ SetDesiredComposedResources AsStruct rsp pre = Some (rsp', None)
         ∧ (∀ n d, (n, d) ∈ pre →
              desired_resources rsp' !! n = Some (stored_Resource AsStruct d))
         ∧ (∀ n, n ∉ pre.*1 →
              desired_resources rsp' !! n = desired_resources rsp !! n)).
Proof.
  intros Horder. unfold range_order in Horder.
  assert (NoDup order.*1) as Hnodup.
  { rewrite Horder. apply NoDup_fst_map_to_list. }
  rewrite SetDesiredComposedResources_eq. do 2 eexists.
  split; [reflexivity|]. rewrite desired_resources_set. split.
  - intros n Hn. apply store_all_lookup_notin.
    intros Hin. destruct (serialized_prefix_prefix order) as [tl Htl].
    assert (n ∈ order.*1) as Hin'.
    { rewrite Htl, fmap_app. apply elem_of_app. by left. }
    apply list_elem_of_fmap in Hin' as [[n' d] [-> Hnd]].
    rewrite Horder in Hnd. apply elem_of_map_to_list in Hnd.
    simpl in Hn. congruence.
  - intros pre name dcd post e -> Hpre Hbad.
    assert (¬ serializes AsStruct dcd) as Hnot.
    { unfold serializes. by rewrite Hbad. }
    rewrite (serialized_prefix_app pre (name, dcd) post Hpre Hnot).
    rewrite (first_failure_app pre (name, dcd) post e Hpre Hbad).
    split; [done|]. split.
    + rewrite SetDesiredComposedResources_eq.
      by destruct (serialized_prefix_all pre Hpre) as [-> ->].
    + rewrite fmap_app in Hnodup. apply NoDup_app in Hnodup as (Hnd & _ & _).
      split.
      * intros n d Hin. by apply store_all_lookup_in.
      * intros n Hn. by apply store_all_lookup_notin.
Qed.

(** ** Desired composite resource *)

(** C10.  When the body does not serialize, [SetDesiredCompositeResource]
    returns an error and has nevertheless written: the response has a
    desired section, whose composite is a resource with the struct that
    the failed serialization handed back (nil whenever [AsStruct] gives
    nil with its error) and the connection details of the input; the
    desired resources are the ones from before the call. *)
Theorem SetDesiredCompositeResource_writes_on_error
    (rsp : RunFunctionResponse Value) (xr : Composite Object)
    (s : option (Struct Value)) (e : error) :
  AsStruct (XR_Resource xr) = (s, Some e) →
  ∃ rsp' d e',
    SetDesiredCompositeResource TypeOf AsStruct rsp xr = Some (rsp', Some e')
    ∧ Desired rsp' = Some d
    ∧ Composite_ d =
        Some {| R_Resource := s;
                R_ConnectionDetails := XR_ConnectionDetails xr;
                R_Ready := Ready_READY_UNSPECIFIED |}
    ∧ (s = None → Composite_ d ≫= R_Resource = None)
    ∧ Resources d = GetResources (Desired rsp).
Proof.
  intros Hs. rewrite SetDesiredCompositeResource_eq, Hs. simpl.
  do 3 eexists. split; [reflexivity|]. simpl. split; [reflexivity|].
  simpl. repeat split. by intros ->.
Qed.

(** C9, as the code has it.  When the body handed to
    [SetDesiredCompositeResource] does not serialize, the error returned
    wraps the serialization failure and its message names the type of the
    body.  [SetDesiredComposedResources] returns the serialization failure
    of the first body that does not serialize as it is: it wraps nothing
    around it and adds no message. *)
Theorem conversion_error_wraps_for_composite_only
    (rsp : RunFunctionResponse Value) :
  (∀ xr e,
     (AsStruct (XR_Resource xr)).2 = Some e →
     ∃ rsp' e',
       SetDesiredCompositeResource TypeOf AsStruct rsp xr = Some (rsp', Some e')
       ∧ Unwrap e' = Some e
       ∧ Error e' = "cannot convert " +:+ TypeOf (XR_Resource xr)
                      +:+ " to desired composite resource" +:+ ": " +:+ Error e
       ∧ mentions (Error e') (TypeOf (XR_Resource xr)) = true)
  ∧ (∀ pre name dcd post e,
       Forall (λ nd, serializes AsStruct nd.2) pre →
       (AsStruct (DCD_Resource dcd)).2 = Some e →
       ∃ rsp',
         SetDesiredComposedResources AsStruct rsp (pre ++ (name, dcd) :: post)
           = Some (rsp', Some e)
         ∧ Unwrap e ≠ Some e).
Proof.
  split.
  - intros xr e He. rewrite SetDesiredCompositeResource_eq, He. simpl.
    do 2 eexists. split; [reflexivity|]. simpl. split; [done|]. split.
    + by rewrite !string_app_assoc.
    + rewrite !string_app_assoc. apply mentions_infix.
  - intros pre name dcd post e Hpre He.
    rewrite SetDesiredComposedResources_eq.
    rewrite (first_failure_app pre (name, dcd) post e Hpre He).
    eexists. split; [reflexivity|]. apply Unwrap_irreflexive.
Qed.

(** ** Results *)

Lemma results_set rsp (l : list Result) :
  results (set_Results rsp (Some l)) = l.
Proof. reflexivity. Qed.

Lemma run_appender_eq rsp (c : appender any) :
  run_appender Sprintf rsp c =
    set_Results rsp (Some (results rsp ++ [appended_Result Sprintf c])).
Proof. destruct c, rsp as [m d [r|] x q]; reflexivity. Qed.

Lemma run_appenders_results (cs : list (appender any)) : ∀ rsp,
  results (run_appenders Sprintf rsp cs) =
    results rsp ++ (appended_Result Sprintf <$> cs).
Proof.
  induction cs as [|c cs IH]; intros rsp; simpl.
  - by rewrite app_nil_r.
  - unfold run_appenders in *; simpl. rewrite IH, run_appender_eq.
    rewrite results_set. by rewrite <- app_assoc.
Qed.

Lemma run_appenders_others (cs : list (appender any)) : ∀ rsp,
  Meta (run_appenders Sprintf rsp cs) = Meta rsp
  ∧ Desired (run_appenders Sprintf rsp cs) = Desired rsp
  ∧ Context_ (run_appenders Sprintf rsp cs) = Context_ rsp
  ∧ Requirements_ (run_appenders Sprintf rsp cs) = Requirements_ rsp.
Proof.
  induction cs as [|c cs IH]; intros rsp; [done|].
  unfold run_appenders in *; simpl.
  destruct (IH (run_appender Sprintf rsp c)) as (-> & -> & -> & ->).
  by rewrite run_appender_eq.
Qed.

(** C6, as the code has it.  After N calls of the result appenders, in
    any combination, the results of the response are the results it held
    before followed by N entries in the order of the calls, each with the
    severity of its appender and the message given to it; so they are
    M + N where the response held M, and N for a response without results.
    The appenders are total functions, and change nothing else in the
    response. *)
Theorem appenders_append_in_call_order
    (rsp : RunFunctionResponse Value) (cs : list (appender any)) :
  results (run_appenders Sprintf rsp cs)
    = results rsp ++ (appended_Result Sprintf <$> cs)
  ∧ length (results (run_appenders Sprintf rsp cs))
      = length (results rsp) + length cs
  ∧ (∀ i c, cs !! i = Some c →
       results (run_appenders Sprintf rsp cs) !! (length (results rsp) + i)
         = Some (appended_Result Sprintf c))
  ∧ (results rsp = [] →
       results (run_appenders Sprintf rsp cs) = appended_Result Sprintf <$> cs
       ∧ length (results (run_appenders Sprintf rsp cs)) = length cs)
  ∧ Meta (run_appenders Sprintf rsp cs) = Meta rsp
  ∧ Desired (run_appenders Sprintf rsp cs) = Desired rsp
  ∧ Context_ (run_appenders Sprintf rsp cs) = Context_ rsp
  ∧ Requirements_ (run_appenders Sprintf rsp cs) = Requirements_ rsp.
Proof.
  rewrite run_appenders_results. split; [done|].
  split; [by rewrite length_app, length_fmap|].
  split.
  { intros i c Hc. rewrite lookup_app_r by lia.
    replace (length (results rsp) + i - length (results rsp)) with i by lia.
    by rewrite list_lookup_fmap, Hc. }
  split.
  { intros ->. simpl. by rewrite length_fmap. }
  apply run_appenders_others.
Qed.

(** ** Nothing is lost *)

Lemma preserved_refl rsp (cs : list (call Value Object any)) :
  preserved cs rsp rsp.
Proof. unfold preserved. by repeat split. Qed.

Lemma preserved_trans (cs1 cs2 : list (call Value Object any)) rsp1 rsp2 rsp3 :
  preserved cs1 rsp1 rsp2 → preserved cs2 rsp2 rsp3 →
  preserved (cs1 ++ cs2) rsp1 rsp3.
Proof.
  intros (Hm1 & Hc1 & Hr1 & Hq1 & Hx1 & Hp1 & Hdc1 & Hdr1 & Hdq1 & Hs1)
         (Hm2 & Hc2 & Hr2 & Hq2 & Hx2 & Hp2 & Hdc2 & Hdr2 & Hdq2 & Hs2).
  unfold preserved. repeat split.
  - congruence.
  - intros k Hk. rewrite bind_app in Hk. apply not_elem_of_app in Hk as [??].
    rewrite Hc2, Hc1; done.
  - intros k Hk. rewrite bind_app in Hk. apply not_elem_of_app in Hk as [??].
    rewrite Hr2, Hr1; done.
  - intros k Hk. rewrite bind_app in Hk. apply not_elem_of_app in Hk as [??].
    rewrite Hq2, Hq1; done.
  - intros [??]%Forall_app. rewrite Hx2, Hx1; done.
  - by etrans.
  - by etrans.
  - by etrans.
  - by etrans.
  - auto.
Qed.

Lemma run_call_preserved rsp (c : call Value Object any) :
  ∃ rsp' err,
    run_call TypeOf Sprintf AsStruct rsp c = Some (rsp', err)
    ∧ preserved [c] rsp rsp'.
Proof.
  destruct c as [key v|xr|dcds|id name gvk|id labels gvk|c]; simpl.
  - rewrite SetContextKey_eq; simpl. do 2 eexists; split; [reflexivity|].
    unfold preserved. rewrite context_fields_set. repeat split; try done.
    + intros k Hk. simpl in Hk. rewrite lookup_insert_ne; [done|].
      intros ->. apply Hk. constructor.
    + apply dom_insert_subseteq.
  - rewrite SetDesiredCompositeResource_eq. do 2 eexists; split; [reflexivity|].
    unfold preserved. repeat split; try done.
    intros Hf. by apply Forall_cons in Hf as [? _].
  - rewrite SetDesiredComposedResources_eq. do 2 eexists; split; [reflexivity|].
    unfold preserved. rewrite desired_resources_set. repeat split; try done.
    + intros n Hn. simpl in Hn. rewrite app_nil_r in Hn.
      apply store_all_lookup_notin. intros Hin. apply Hn.
      destruct (serialized_prefix_prefix dcds) as [tl Htl].
      rewrite Htl, fmap_app. apply elem_of_app. by left.
    + apply store_all_dom.
  - unfold RequestExtraResourceByName, New.
    destruct (Empty gvk); [do 2 eexists; split; [reflexivity|apply preserved_refl]|].
    destruct (bool_decide (id = ""));
      [do 2 eexists; split; [reflexivity|apply preserved_refl]|].
    destruct (bool_decide (name = ""));
      [do 2 eexists; split; [reflexivity|apply preserved_refl]|].
    rewrite store_selector_eq; simpl. do 2 eexists; split; [reflexivity|].
    unfold preserved. rewrite extra_resources_set. repeat split; try done.
    + intros k Hk. simpl in Hk. rewrite lookup_insert_ne; [done|].
      intros ->. apply Hk. constructor.
    + apply dom_insert_subseteq.
  - unfold RequestExtraResourceByLabels, New.
    destruct (Empty gvk); [do 2 eexists; split; [reflexivity|apply preserved_refl]|].
    destruct (bool_decide (id = ""));
      [do 2 eexists; split; [reflexivity|apply preserved_refl]|].
    rewrite store_selector_eq; simpl. do 2 eexists; split; [reflexivity|].
    unfold preserved. rewrite extra_resources_set. repeat split; try done.
    + intros k Hk. simpl in Hk. rewrite lookup_insert_ne; [done|].
      intros ->. apply Hk. constructor.
    + apply dom_insert_subseteq.
  - do 2 eexists; split; [reflexivity|]. rewrite run_appender_eq.
    unfold preserved. rewrite results_set. repeat split; try done.
    by apply prefix_app_r.
Qed.

Lemma run_calls_preserved (cs : list (call Value Object any)) : ∀ rsp,
  ∃ rsp', run_calls TypeOf Sprintf AsStruct rsp cs = Some rsp'
          ∧ preserved cs rsp rsp'.
Proof.
  induction cs as [|c cs IH]; intros rsp; simpl.
  - eexists; split; [reflexivity|apply preserved_refl].
  - destruct (run_call_preserved rsp c) as (r1 & err & -> & H1). simpl.
    destruct (IH r1) as (r2 & -> & H2).
    eexists; split; [reflexivity|].
    by apply (preserved_trans [c] cs rsp r1 r2).
Qed.

(** C3.  Whatever a response holds, a sequence of builder calls runs to
    its end and loses nothing: a context value, a desired resource and a
    requirement are as before under every key that no call of the
    sequence assigns; the desired composite is as before unless
    [SetDesiredCompositeResource] is among the calls; the earlier results
    are the first results; every key that was in a map is still in it;
    the meta is untouched. *)
Theorem builders_never_lose_entries
    (rsp : RunFunctionResponse Value) (cs : list (call Value Object any)) :
  ∃ rsp',
    run_calls TypeOf Sprintf AsStruct rsp cs = Some rsp'
    ∧ Meta rsp' = Meta rsp
    ∧ (∀ k, k ∉ cs ≫= context_keys →
         context_fields rsp' !! k = context_fields rsp !! k)
    ∧ (∀ n, n ∉ cs ≫= resource_names →
         desired_resources rsp' !! n = desired_resources rsp !! n)
    ∧ (∀ i, i ∉ cs ≫= requirement_ids →
         extra_resources rsp' !! i = extra_resources rsp !! i)
    ∧ (Forall (λ c, sets_composite c = false) cs →
         desired_composite rsp' = desired_composite rsp)
    ∧ results rsp `prefix_of` results rsp'
    ∧ dom (context_fields rsp) ⊆ dom (context_fields rsp')
    ∧ dom (desired_resources rsp) ⊆ dom (desired_resources rsp')
    ∧ dom (extra_resources rsp) ⊆ dom (extra_resources rsp')
    ∧ (is_Some (desired_composite rsp) → is_Some (desired_composite rsp')).
Proof. apply run_calls_preserved. Qed.

End Properties.

(** ** Examples *)

(** The scenario of a first function in a pipeline. *)
Example first_function :
  let rsp := To (Some example_request) DefaultTTL in
  ∃ r1 r3,
    SetContextKey rsp "note" "hello" = Some r1
    ∧ RequestExtraResourceByName (Normal r1 "did a thing") "req-1" "my-resource"
        example_gvk = Some (r3, None)
    ∧ Meta r3 = Some {| Rsp_Tag := "abc";
                        Rsp_Ttl := Some {| Seconds := 60; Nanos := 0 |} |}
    ∧ context_fields r3 !! "note" = Some "hello"
    ∧ results r3 = [ {| Res_Severity := Severity_SEVERITY_NORMAL;
                        Res_Message := "did a thing" |} ]
    ∧ extra_resources r3 !! "req-1" =
        Some {| Sel_ApiVersion := "example.org/v1"; Sel_Kind := "Widget";
                Sel_Match := Some (ResourceSelector_MatchName "my-resource") |}.
Proof.
  do 2 eexists. split; [vm_compute; reflexivity|].
  split; [vm_compute; reflexivity|]. by vm_compute.
Qed.

(** The loop stops at ["b"]: ["a"] is stored, ["b"] and ["c"] are not. *)
Example partial_write :
  ∃ rsp',
    SetDesiredComposedResources body_AsStruct blank three_entries
      = Some (rsp', Some (errorString "json: unsupported value"))
    ∧ dom (desired_resources rsp') = {[ "a" ]}.
Proof.
  rewrite SetDesiredComposedResources_eq. eexists. split; [reflexivity|].
  rewrite desired_resources_set. by vm_compute.
Qed.

(** ** Instances of the theorems *)

Lemma rejects_empty_id_witness :
  ("" = "" ∨ Empty example_gvk = true)
  ∧ (∃ e, RequestExtraResourceByName blank "" "my-resource" example_gvk
            = Some (blank, Some e))
  ∧ (∃ e, RequestExtraResourceByLabels blank "" None example_gvk
            = Some (blank, Some e)).
Proof.
  split; [by left|].
  apply (RequestExtraResource_rejects_empty_id_or_GVK
           blank "" "my-resource" None example_gvk).
  by left.
Defined.

Lemma never_lose_entries_witness :
  ∃ rsp',
    run_calls body_type words_Sprintf body_AsStruct seeded
      [CallSetContextKey "note" "hello";
       CallSetDesiredComposedResources three_entries;
       CallAppend (AppendNormal "did a thing")] = Some rsp'
    ∧ context_fields rsp' !! "old" = Some "kept".
Proof.
  destruct (builders_never_lose_entries body_type words_Sprintf body_AsStruct
              seeded
              [CallSetContextKey "note" "hello";
               CallSetDesiredComposedResources three_entries;
               CallAppend (AppendNormal "did a thing")])
    as (rsp' & Hrun & _ & Hctx & _).
  exists rsp'. split; [exact Hrun|].
  rewrite Hctx; [reflexivity|]. by apply (bool_decide_unpack _).
Defined.

Lemma fails_fast_witness :
  range_order (list_to_map three_entries) three_entries
  ∧ ∃ rsp' err,
      SetDesiredComposedResources body_AsStruct blank three_entries
        = Some (rsp', err)
      ∧ err = Some (errorString "json: unsupported value")
      ∧ desired_resources rsp' !! "a" =
          Some {| R_Resource := Some {| Fields := Some ∅ |};
                  R_ConnectionDetails := None;
                  R_Ready := Ready_READY_TRUE |}
      ∧ desired_resources rsp' !! "b" = None
      ∧ desired_resources rsp' !! "c" = None.
Proof.
  assert (range_order (list_to_map three_entries) three_entries) as Horder.
  { unfold range_order. symmetry. apply map_to_list_to_map.
    by apply (bool_decide_unpack _). }
  split; [exact Horder|].
  destruct (SetDesiredComposedResources_fails_fast body_AsStruct blank
              (list_to_map three_entries) three_entries Horder)
    as (rsp' & err & Hrun & _ & Hfail).
  exists rsp', err. split; [exact Hrun|].
  destruct (Hfail
              [("a", {| DCD_Resource := widget; DCD_Ready := ReadyTrue |})]
              "b" {| DCD_Resource := broken; DCD_Ready := ReadyFalse |}
              [("c", {| DCD_Resource := widget; DCD_Ready := ReadyUnspecified |})]
              (errorString "json: unsupported value"))
    as (Herr & _ & Hin & Hout).
  - reflexivity.
  - by repeat constructor.
  - reflexivity.
  - split; [exact Herr|]. split.
    + rewrite (Hin "a" {| DCD_Resource := widget; DCD_Ready := ReadyTrue |});
        [reflexivity|]. by apply list_elem_of_here.
    + split; (rewrite Hout; [reflexivity|]); by apply (bool_decide_unpack _).
Defined.

Lemma SetContextKey_twice_witness :
  "note" ≠ "other"
  ∧ (∃ r1 r2,
       SetContextKey blank "note" "hello" = Some r1
       ∧ SetContextKey r1 "other" "world" = Some r2
       ∧ context_fields r2 !! "note" = Some "hello"
       ∧ context_fields r2 !! "other" = Some "world")
  ∧ (∃ r1 r2,
       SetContextKey blank "note" "hello" = Some r1
       ∧ SetContextKey r1 "note" "world" = Some r2
       ∧ context_fields r2 !! "note" = Some "world"
       ∧ size (context_fields r2) = size (context_fields r1)).
Proof.
  split; [done|].
  destruct (SetContextKey_twice blank "note" "other" "hello" "world")
    as [Hdiff Hsame].
  split; [by apply Hdiff | exact Hsame].
Defined.

(** A response that already holds a result has two after one more call:
    the number of calls is not the number of results. *)
Lemma appenders_on_reported_response :
  results (run_appenders words_Sprintf reported [AppendNormal "did a thing"])
    = [ {| Res_Severity := Severity_SEVERITY_WARNING; Res_Message := "earlier" |};
        {| Res_Severity := Severity_SEVERITY_NORMAL; Res_Message := "did a thing" |} ]
  ∧ length (results (run_appenders words_Sprintf reported
                       [AppendNormal "did a thing"]))
      ≠ length [AppendNormal "did a thing" : appender string].
Proof. split; [reflexivity | by vm_compute]. Qed.

Lemma appenders_witness :
  results blank = []
  ∧ results (run_appenders words_Sprintf blank
               [AppendFatal (errorString "boom"); AppendNormalf "%s %s" ["a"; "b"]])
      = [ {| Res_Severity := Severity_SEVERITY_FATAL; Res_Message := "boom" |};
          {| Res_Severity := Severity_SEVERITY_NORMAL; Res_Message := "%s %s a b" |} ].
Proof.
  split; [reflexivity|].
  destruct (appenders_append_in_call_order words_Sprintf blank
              [AppendFatal (errorString "boom"); AppendNormalf "%s %s" ["a"; "b"]])
    as (_ & _ & _ & Hfresh & _).
  destruct (Hfresh eq_refl) as [-> _]. reflexivity.
Defined.

Lemma readiness_mapping_witness :
  serializes body_AsStruct {| DCD_Resource := widget; DCD_Ready := ReadyFalse |}
  ∧ ∃ rsp' r,
      SetDesiredComposedResources body_AsStruct blank
        [("a", {| DCD_Resource := widget; DCD_Ready := ReadyFalse |})]
        = Some (rsp', None)
      ∧ desired_resources rsp' !! "a" = Some r
      ∧ R_Ready r = Ready_READY_FALSE.
Proof.
  split; [reflexivity|].
  destruct (readiness_mapping body_AsStruct blank "a"
              {| DCD_Resource := widget; DCD_Ready := ReadyFalse |})
    as (_ & _ & Hstore).
  destruct (Hstore eq_refl) as (rsp' & r & Hrun & Hr & _ & Hready).
  exists rsp', r. split; [exact Hrun|]. split; [exact Hr|].
  rewrite Hready. reflexivity.
Defined.

Lemma empty_labels_witness :
  (entries (Some ∅ : gomap string) = ∅ ∧ "req-1" ≠ "" ∧ Empty example_gvk = false)
  ∧ ∃ rsp',
      RequestExtraResourceByLabels blank "req-1" (Some ∅) example_gvk
        = Some (rsp', None)
      ∧ extra_resources rsp' !! "req-1" =
          Some {| Sel_ApiVersion := "example.org/v1"; Sel_Kind := "Widget";
                  Sel_Match := Some (ResourceSelector_MatchLabels
                                       (Some {| Labels := Some ∅ |})) |}.
Proof.
  split; [done|].
  destruct (empty_name_rejected_empty_labels_accepted
              blank "req-1" (Some ∅) example_gvk) as [_ Hlabels].
  destruct Hlabels as (rsp' & Hrun & Hsel & _); [done..|].
  exists rsp'. split; [exact Hrun | exact Hsel].
Defined.

(** [SetDesiredComposedResources] hands back the error of [AsStruct]: it
    wraps nothing and its message does not name the type of the body. *)
Lemma composed_error_is_not_wrapped :
  snd <$> SetDesiredComposedResources body_AsStruct blank
            [("b", {| DCD_Resource := broken; DCD_Ready := ReadyFalse |})]
    = Some (Some (errorString "json: unsupported value"))
  ∧ Unwrap (errorString "json: unsupported value") = None
  ∧ mentions (Error (errorString "json: unsupported value")) (body_type broken)
      = false.
Proof. by vm_compute. Qed.

Lemma conversion_error_witness :
  (body_AsStruct (XR_Resource broken_xr)).2
    = Some (errorString "json: unsupported value")
  ∧ ∃ rsp' e',
      SetDesiredCompositeResource body_type body_AsStruct blank broken_xr
        = Some (rsp', Some e')
      ∧ Unwrap e' = Some (errorString "json: unsupported value")
      ∧ Error e' = "cannot convert *composite.Unstructured to desired composite resource: json: unsupported value"
      ∧ mentions (Error e') "*composite.Unstructured" = true.
Proof.
  split; [reflexivity|].
  destruct (conversion_error_wraps_for_composite_only body_type body_AsStruct
              blank) as [Hxr _].
  destruct (Hxr broken_xr (errorString "json: unsupported value") eq_refl)
    as (rsp' & e' & Hrun & Hunwrap & Hmsg & Hnames).
  exists rsp', e'. split; [exact Hrun|]. split; [exact Hunwrap|].
  split; [exact Hmsg | exact Hnames].
Defined.

Lemma writes_on_error_witness :
  body_AsStruct (XR_Resource broken_xr)
    = (None, Some (errorString "json: unsupported value"))
  ∧ ∃ rsp' d e',
      SetDesiredCompositeResource body_type body_AsStruct blank broken_xr
        = Some (rsp', Some e')
      ∧ Desired rsp' = Some d
      ∧ Composite_ d =
          Some {| R_Resource := None; R_ConnectionDetails := Some ∅;
                  R_Ready := Ready_READY_UNSPECIFIED |}.
Proof.
  split; [reflexivity|].
  destruct (SetDesiredCompositeResource_writes_on_error body_type body_AsStruct
              blank broken_xr None (errorString "json: unsupported value")
              eq_refl)
    as (rsp' & d & e' & Hrun & Hd & Hc & _).
  exists rsp', d, e'. split; [exact Hrun|]. split; [exact Hd | exact Hc].
Defined.

(** ** Further laws of the builders *)

Section Laws.

Set Default Proof Using "Type".

Context {Value Object any : Type}.
Variable TypeOf : Object -> string.
Variable Sprintf : string -> list any -> string.
Variable AsStruct : Object -> option (Struct Value) * option error.

Implicit Types (rsp : RunFunctionResponse Value) (xr : Composite Object)
  (dcd : DesiredComposed Object) (dcds : list (string * DesiredComposed Object)).






Lemma first_failure_None dcds :
  first_failure AsStruct dcds = None ↔ Forall (λ nd, serializes AsStruct nd.2) dcds.
Proof.
  unfold serializes. induction dcds as [|nd rest IH]; simpl.
  - split; [by constructor|done].
  - destruct (AsStruct (DCD_Resource nd.2)).2 as [e|] eqn:He.
    + split; [done|]. intros Hall. apply Forall_cons in Hall as [Hnd _]. congruence.
    + rewrite IH. split; [by constructor|]. by intros [_ ?]%Forall_cons.
Qed.

Lemma first_failure_Some dcds e :
  first_failure AsStruct dcds = Some e →
  ∃ nd, nd ∈ dcds ∧ (AsStruct (DCD_Resource nd.2)).2 = Some e.
Proof.
  induction dcds as [|nd rest IH]; simpl; [done|].
  destruct (AsStruct (DCD_Resource nd.2)).2 as [e'|] eqn:He.
  - intros [= ->]. exists nd. split; [by left|done].
  - intros Hrest. destruct (IH Hrest) as (nd' & Hin & Hnd').
    exists nd'. split; [by right|done].
Qed.

Lemma store_all_lookup_map (input : gmap string (DesiredComposed Object))
    (order : list (string * DesiredComposed Object))
    (m : gmap string (Resource Value)) (n : string) :
  range_order input order →
  store_all AsStruct order m !! n =
    match input !! n with
    | Some d => Some (stored_Resource AsStruct d)
    | None => m !! n
    end.
Proof.
  unfold range_order. intros Horder.
  assert (NoDup order.*1) as Hnodup.
  { rewrite Horder. apply NoDup_fst_map_to_list. }
  destruct (input !! n) as [d|] eqn:Hn.
  - apply store_all_lookup_in; [done|].
    rewrite Horder. by apply elem_of_map_to_list.
  - apply store_all_lookup_notin. intros Hin.
    apply list_elem_of_fmap in Hin as [[n' d] [-> Hnd]].
    rewrite Horder in Hnd. apply elem_of_map_to_list in Hnd.
    simpl in Hn. congruence.
Qed.

Lemma serialized_prefix_map (input : gmap string (DesiredComposed Object))
    (order : list (string * DesiredComposed Object)) :
  range_order input order →
  (∀ n d, input !! n = Some d → serializes AsStruct d) →
  serialized_prefix AsStruct order = order
  ∧ first_failure AsStruct order = None.
Proof.
  unfold range_order. intros Horder Hall. apply serialized_prefix_all.
  apply Forall_forall. intros [n d] Hin. simpl.
  apply (Hall n). apply elem_of_map_to_list. by rewrite <- Horder.
Qed.

(** *** Desired composite resource *)

(** X1.  [SetDesiredCompositeResource] returns nil exactly when the body
    serializes.  Whether it does or not, the desired composite is then
    the new resource, with the connection details of the input and an
    unspecified readiness, whatever composite was there before; the
    desired resources and every other section are the ones from before. *)
Theorem SetDesiredCompositeResource_result rsp xr :
  ∃ rsp' err,
    SetDesiredCompositeResource TypeOf AsStruct rsp xr = Some (rsp', err)
    ∧ (err = None ↔ (AsStruct (XR_Resource xr)).2 = None)
    ∧ desired_composite rsp' =
        Some {| R_Resource := (AsStruct (XR_Resource xr)).1;
                R_ConnectionDetails := XR_ConnectionDetails xr;
                R_Ready := Ready_READY_UNSPECIFIED |}
    ∧ GetResources (GetDesired rsp') = GetResources (GetDesired rsp)
    ∧ Meta rsp' = Meta rsp
    ∧ Context_ rsp' = Context_ rsp
    ∧ Results rsp' = Results rsp
    ∧ Requirements_ rsp' = Requirements_ rsp.
Proof.
  rewrite SetDesiredCompositeResource_eq. do 2 eexists.
  split; [reflexivity|]. split; [|by repeat split].
  by destruct (AsStruct (XR_Resource xr)).2.
Qed.

(** *** Desired composed resources *)

(** X2.  When every body of the input mapping serializes,
    [SetDesiredComposedResources] returns nil, whatever the order of the
    loop, and the desired resources are then the old ones overlaid with
    one resource per input name: the serialized body with the mapped
    readiness and without connection details, also where an entry of that
    name held connection details before. *)
Theorem SetDesiredComposedResources_success rsp
    (input : gmap string (DesiredComposed Object))
    (order : list (string * DesiredComposed Object)) :
  range_order input order →
  (∀ n d, input !! n = Some d → serializes AsStruct d) →
  ∃ rsp',
    SetDesiredComposedResources AsStruct rsp order = Some (rsp', None)
    ∧ (∀ n, desired_resources rsp' !! n =
         match input !! n with
         | Some d => Some (composed_Resource (AsStruct (DCD_Resource d)).1
                             (DCD_Ready d))
         | None => desired_resources rsp !! n
         end)
    ∧ (∀ n r, is_Some (input !! n) → desired_resources rsp' !! n = Some r →
         R_ConnectionDetails r = None)
    ∧ dom (desired_resources rsp') = dom input ∪ dom (desired_resources rsp).
Proof.
  intros Horder Hall. rewrite SetDesiredComposedResources_eq.
  destruct (serialized_prefix_map input order Horder Hall) as [-> ->].
  eexists. split; [reflexivity|]. rewrite desired_resources_set.
  assert (∀ n, store_all AsStruct order (desired_resources rsp) !! n =
               match input !! n with
               | Some d => Some (composed_Resource (AsStruct (DCD_Resource d)).1
                                   (DCD_Ready d))
               | None => desired_resources rsp !! n
               end) as Hlook.
  { intros n. by rewrite (store_all_lookup_map input order _ n Horder). }
  split; [exact Hlook|]. split.
  - intros n r [d Hd] Hr. rewrite Hlook, Hd in Hr. injection Hr as <-.
    by destruct (DCD_Ready d).
  - apply set_eq. intros n. rewrite elem_of_union, !elem_of_dom, Hlook.
    destruct (input !! n) as [d|]; split.
    + intros _. left. by eexists.
    + intros _. by eexists.
    + intros ?. by right.
    + intros [[? [=]]|?]. done.
Qed.

(** X3.  The order in which the loop visits the mapping does not show when
    every body serializes: two orders give the same response. *)
Theorem SetDesiredComposedResources_order_irrelevant rsp
    (input : gmap string (DesiredComposed Object))
    (order1 order2 : list (string * DesiredComposed Object)) :
  range_order input order1 → range_order input order2 →
  (∀ n d, input !! n = Some d → serializes AsStruct d) →
  SetDesiredComposedResources AsStruct rsp order1
    = SetDesiredComposedResources AsStruct rsp order2.
Proof.
  intros H1 H2 Hall. rewrite !SetDesiredComposedResources_eq.
  destruct (serialized_prefix_map input order1 H1 Hall) as [-> ->].
  destruct (serialized_prefix_map input order2 H2 Hall) as [-> ->].
  assert (store_all AsStruct order1 (desired_resources rsp)
          = store_all AsStruct order2 (desired_resources rsp)) as ->; [|done].
  apply map_eq. intros n.
  by rewrite (store_all_lookup_map input order1 _ n H1),
             (store_all_lookup_map input order2 _ n H2).
Qed.

(** X4.  [SetDesiredComposedResources] returns nil exactly when every body it
    is given serializes, and an error it returns is the error that
    [AsStruct] gave for one of the bodies. *)
Theorem SetDesiredComposedResources_error_iff rsp dcds :
  ∃ rsp' err,
    SetDesiredComposedResources AsStruct rsp dcds = Some (rsp', err)
    ∧ (err = None ↔ Forall (λ nd, serializes AsStruct nd.2) dcds)
    ∧ (∀ e, err = Some e →
         ∃ nd, nd ∈ dcds ∧ (AsStruct (DCD_Resource nd.2)).2 = Some e).
Proof.
  rewrite SetDesiredComposedResources_eq. do 2 eexists.
  split; [reflexivity|]. split.
  - apply first_failure_None.
  - apply first_failure_Some.
Qed.

(** X5.  After [SetDesiredComposedResources] the response has a desired section
    with an allocated map of resources, also after an error and for an
    empty input; for an empty input the call returns nil and the map
    holds the entries from before. *)
Theorem SetDesiredComposedResources_allocates rsp dcds :
  ∃ rsp' err m,
    SetDesiredComposedResources AsStruct rsp dcds = Some (rsp', err)
    ∧ GetResources (GetDesired rsp') = Some m
    ∧ (dcds = [] → err = None ∧ m = desired_resources rsp)
    ∧ desired_composite rsp' = desired_composite rsp.
Proof.
  rewrite SetDesiredComposedResources_eq. do 3 eexists.
  split; [reflexivity|]. split; [reflexivity|]. split; [|done].
  by intros ->.
Qed.

(** *** Requirements *)

Lemma Empty_false (gvk : GroupVersionKind) :
  Empty gvk = false ↔ Group gvk ≠ "" ∨ Version gvk ≠ "" ∨ Kind gvk ≠ "".
Proof.
  unfold Empty. destruct gvk as [[|a g] [|b v] [|c k]]; simpl;
    split; intros H; try done; try (by auto);
    by destruct H as [?|[?|?]].
Qed.

Lemma RequestExtraResourceByName_eq rsp id name gvk :
  Empty gvk = false → id ≠ "" → name ≠ "" →
  RequestExtraResourceByName rsp id name gvk =
    Some (set_Requirements rsp (Some
            {| ExtraResources := Some
                 (<[id := {| Sel_ApiVersion := GroupVersion_String gvk;
                             Sel_Kind := Kind gvk;
                             Sel_Match := Some (ResourceSelector_MatchName name) |}]>
                    (extra_resources rsp)) |}), None).
Proof.
  intros Hg Hid Hname. unfold RequestExtraResourceByName.
  rewrite Hg, !bool_decide_eq_false_2 by done.
  by rewrite store_selector_eq.
Qed.

Lemma RequestExtraResourceByLabels_eq rsp id labels gvk :
  Empty gvk = false → id ≠ "" →
  RequestExtraResourceByLabels rsp id labels gvk =
    Some (set_Requirements rsp (Some
            {| ExtraResources := Some
                 (<[id := {| Sel_ApiVersion := GroupVersion_String gvk;
                             Sel_Kind := Kind gvk;
                             Sel_Match := Some (ResourceSelector_MatchLabels
                                                  (Some {| Labels := labels |})) |}]>
                    (extra_resources rsp)) |}), None).
Proof.
  intros Hg Hid. unfold RequestExtraResourceByLabels.
  rewrite Hg, !bool_decide_eq_false_2 by done.
  by rewrite store_selector_eq.
Qed.

(** X6.  With a GVK, an id and a name, [RequestExtraResourceByName] returns nil
    and has registered, under the id, a selector with the apiVersion and
    kind of the GVK that matches the name; [RequestExtraResourceByLabels]
    does so with the labels it was given.  The other requirements and the
    other sections of the response are untouched. *)
Theorem RequestExtraResource_registers rsp id name labels gvk :
  Empty gvk = false → id ≠ "" → name ≠ "" →
  (∃ rsp',
     RequestExtraResourceByName rsp id name gvk = Some (rsp', None)
     ∧ extra_resources rsp' !! id =
         Some {| Sel_ApiVersion := GroupVersion_String gvk;
                 Sel_Kind := Kind gvk;
                 Sel_Match := Some (ResourceSelector_MatchName name) |}
     ∧ (∀ i, i ≠ id → extra_resources rsp' !! i = extra_resources rsp !! i)
     ∧ Meta rsp' = Meta rsp ∧ Desired rsp' = Desired rsp
     ∧ Results rsp' = Results rsp ∧ Context_ rsp' = Context_ rsp)
  ∧ (∃ rsp',
       RequestExtraResourceByLabels rsp id labels gvk = Some (rsp', None)
       ∧ extra_resources rsp' !! id =
           Some {| Sel_ApiVersion := GroupVersion_String gvk;
                   Sel_Kind := Kind gvk;
                   Sel_Match := Some (ResourceSelector_MatchLabels
                                        (Some {| Labels := labels |})) |}
       ∧ (∀ i, i ≠ id → extra_resources rsp' !! i = extra_resources rsp !! i)
       ∧ Meta rsp' = Meta rsp ∧ Desired rsp' = Desired rsp
       ∧ Results rsp' = Results rsp ∧ Context_ rsp' = Context_ rsp).
Proof.
  intros Hg Hid Hname. split.
  - rewrite RequestExtraResourceByName_eq by done. eexists.
    split; [reflexivity|]. rewrite extra_resources_set.
    split; [by rewrite lookup_insert_eq|].
    split; [|done]. intros i Hi. by rewrite lookup_insert_ne.
  - rewrite RequestExtraResourceByLabels_eq by done. eexists.
    split; [reflexivity|]. rewrite extra_resources_set.
    split; [by rewrite lookup_insert_eq|].
    split; [|done]. intros i Hi. by rewrite lookup_insert_ne.
Qed.

(** X7.  The validation is exactly this: [RequestExtraResourceByName] returns
    nil if and only if one of group, version and kind is not empty and
    neither the id nor the name is empty; [RequestExtraResourceByLabels]
    if and only if one of group, version and kind is not empty and the id
    is not empty.  A GVK of which only a part is given passes. *)
Theorem RequestExtraResource_validation rsp id name labels gvk :
  ((∃ rsp', RequestExtraResourceByName rsp id name gvk = Some (rsp', None))
   ↔ (Group gvk ≠ "" ∨ Version gvk ≠ "" ∨ Kind gvk ≠ "") ∧ id ≠ "" ∧ name ≠ "")
  ∧ ((∃ rsp', RequestExtraResourceByLabels rsp id labels gvk = Some (rsp', None))
     ↔ (Group gvk ≠ "" ∨ Version gvk ≠ "" ∨ Kind gvk ≠ "") ∧ id ≠ "").
Proof.
  rewrite <- Empty_false. split; split.
  - intros [rsp' H]. unfold RequestExtraResourceByName, New in H.
    destruct (Empty gvk); [done|].
    destruct (decide (id = "")) as [->|Hid]; [done|].
    rewrite (bool_decide_eq_false_2 _ Hid) in H.
    destruct (decide (name = "")) as [->|Hname]; [done|]. done.
  - intros (Hg & Hid & Hname). rewrite RequestExtraResourceByName_eq by done.
    by eexists.
  - intros [rsp' H]. unfold RequestExtraResourceByLabels, New in H.
    destruct (Empty gvk); [done|].
    destruct (decide (id = "")) as [->|Hid]; [done|]. done.
  - intros (Hg & Hid). rewrite RequestExtraResourceByLabels_eq by done.
    by eexists.
Qed.

(** X8.  A request that succeeds overwrites an earlier request under the same
    id, by name or by labels, without a trace: the response is the one
    that the later request alone gives. *)
Theorem RequestExtraResource_same_id_overwrites rsp
    (c1 c2 : call Value Object any) (id : string) r1 r2 :
  requirement_ids c1 = [id] → requirement_ids c2 = [id] →
  run_call TypeOf Sprintf AsStruct rsp c1 = Some (r1, None) →
  run_call TypeOf Sprintf AsStruct r1 c2 = Some (r2, None) →
  run_call TypeOf Sprintf AsStruct rsp c2 = Some (r2, None).
Proof.
  assert (∀ rsp id sel1 sel2 r1 r2,
            store_selector rsp id sel1 = Some r1 →
            store_selector r1 id sel2 = Some r2 →
            store_selector rsp id sel2 = Some r2) as Hstore.
  { intros rsp0 id0 sel1 sel2 q1 q2. rewrite !store_selector_eq.
    intros [= <-]. rewrite extra_resources_set.
    intros [= <-]. by rewrite insert_insert_eq. }
  destruct c1 as [| | |id1 n1 g1|id1 l1 g1|]; try done;
    destruct c2 as [| | |id2 n2 g2|id2 l2 g2|]; try done;
    simpl; intros [= ->] [= ->];
    unfold RequestExtraResourceByName, RequestExtraResourceByLabels, New;
    repeat (match goal with
            | |- context [if ?b then _ else _] => destruct b; [done|]
            end);
    repeat (match goal with
            | |- context [store_selector ?r ?i ?s] =>
                destruct (store_selector r i s) eqn:?; simpl; [|done]
            end);
    intros [= <-] [= <-]; simpl;
    by erewrite Hstore.
Qed.

(** X9.  [RequestExtraResourceByLabels] refuses an input with the very error
    that [RequestExtraResourceByName] gives for the same id and GVK, and
    the text of that error speaks of a request by name. *)
Theorem RequestExtraResourceByLabels_error_of_ByName
    rsp id name labels gvk rsp' e :
  RequestExtraResourceByLabels rsp id labels gvk = Some (rsp', Some e) →
  RequestExtraResourceByName rsp id name gvk = Some (rsp', Some e)
  ∧ mentions (Error e) "cannot request extra resource by name" = true.
Proof.
  unfold RequestExtraResourceByLabels, RequestExtraResourceByName, New.
  destruct (Empty gvk); [by intros [= <- <-]|].
  destruct (bool_decide (id = "")); [by intros [= <- <-]|].
  rewrite store_selector_eq. done.
Qed.

(** *** How the builders compose *)



(** X12.  A builder writes one section of the response: the meta is never
    touched, and the context, the desired state, the requirements and
    the results are each the very value from before the call, nil where
    it was nil, unless the call is one of the builders of that section. *)
Theorem builders_write_one_section rsp (c : call Value Object any) rsp' err :
  run_call TypeOf Sprintf AsStruct rsp c = Some (rsp', err) →
  Meta rsp' = Meta rsp
  ∧ ((∀ k v, c ≠ CallSetContextKey k v) → Context_ rsp' = Context_ rsp)
  ∧ ((∀ xr, c ≠ CallSetDesiredCompositeResource xr) →
     (∀ l, c ≠ CallSetDesiredComposedResources l) →
     Desired rsp' = Desired rsp)
  ∧ ((∀ i n g, c ≠ CallRequestExtraResourceByName i n g) →
     (∀ i b g, c ≠ CallRequestExtraResourceByLabels i b g) →
     Requirements_ rsp' = Requirements_ rsp)
  ∧ ((∀ a, c ≠ CallAppend a) → Results rsp' = Results rsp).
Proof.
  destruct c as [k v|xr|l|i n g|i b g|a]; simpl;
    unfold RequestExtraResourceByName, RequestExtraResourceByLabels, New;
    repeat (match goal with
            | |- context [if ?b then _ else _] => destruct b eqn:?
            end);
    rewrite ?SetContextKey_eq, ?SetDesiredCompositeResource_eq,
            ?SetDesiredComposedResources_eq, ?store_selector_eq,
            ?(run_appender_eq Sprintf); simpl;
    intros [= <- <-]; repeat split; try done;
    intros; exfalso;
    match goal with H : context [_ ≠ _] |- _ => by eapply H end.
Qed.

(** *** Context *)

(** X13.  [SetContextKey] cannot fail, whether the context or its fields are
    nil or not; afterwards the fields are allocated, their keys are the
    old keys and the key given, and their number has grown by one exactly
    when the key was not there before. *)
Theorem SetContextKey_allocates rsp (key : string) (v : Value) :
  ∃ rsp' m,
    SetContextKey rsp key v = Some rsp'
    ∧ GetFields (GetContext rsp') = Some m
    ∧ m !! key = Some v
    ∧ dom m = {[ key ]} ∪ dom (context_fields rsp)
    ∧ size m = match context_fields rsp !! key with
               | Some _ => size (context_fields rsp)
               | None => S (size (context_fields rsp))
               end.
Proof.
  rewrite SetContextKey_eq. do 2 eexists. split; [reflexivity|].
  split; [reflexivity|]. split; [by rewrite lookup_insert_eq|].
  split; [by rewrite dom_insert_L|].
  rewrite map_size_insert. by destruct (context_fields rsp !! key).
Qed.

(** *** A response made by [To] *)

(** X14.  A response made by [To] holds no results and no requirements,
    whatever the request; N calls of the result appenders on it give
    exactly N results, in the order of the calls. *)
Theorem To_then_appenders (req : option (RunFunctionRequest Value)) (T : Z)
    (cs : list (appender any)) :
  Results (To req T) = None
  ∧ Requirements_ (To req T) = None
  ∧ results (run_appenders Sprintf (To req T) cs) = appended_Result Sprintf <$> cs
  ∧ length (results (run_appenders Sprintf (To req T) cs)) = length cs.
Proof.
  split; [done|]. split; [done|].
  rewrite run_appenders_results. split; [done|].
  simpl. by rewrite length_fmap.
Qed.


End Laws.

(** ** Instances of the further laws *)

Lemma two_entries_order : range_order (list_to_map two_entries) two_entries.
Proof.
  unfold range_order. symmetry. apply map_to_list_to_map.
  by apply (bool_decide_unpack _).
Qed.

Lemma two_entries_swapped_order :
  range_order (list_to_map two_entries) two_entries_swapped.
Proof.
  unfold range_order. rewrite <- two_entries_order. apply perm_swap.
Qed.

Lemma two_entries_serialize (n : string) (d : DesiredComposed body) :
  (list_to_map two_entries : gmap string (DesiredComposed body)) !! n = Some d →
  serializes body_AsStruct d.
Proof.
  intros Hd. apply elem_of_list_to_map_2 in Hd.
  apply elem_of_cons in Hd as [[= -> ->]|Hd]; [reflexivity|].
  apply elem_of_cons in Hd as [[= -> ->]|Hd]; [reflexivity|].
  by apply elem_of_nil in Hd.
Qed.

Lemma composed_success_witness :
  range_order (list_to_map two_entries) two_entries
  ∧ ∃ rsp',
      SetDesiredComposedResources body_AsStruct blank two_entries
        = Some (rsp', None)
      ∧ desired_resources rsp' !! "c" =
          Some {| R_Resource := Some {| Fields := Some ∅ |};
                  R_ConnectionDetails := None;
                  R_Ready := Ready_READY_UNSPECIFIED |}
      ∧ desired_resources rsp' !! "b" = None.
Proof.
  split; [exact two_entries_order|].
  destruct (SetDesiredComposedResources_success body_AsStruct blank
              (list_to_map two_entries) two_entries two_entries_order
              two_entries_serialize)
    as (rsp' & Hrun & Hlook & _).
  exists rsp'. split; [exact Hrun|]. split; by rewrite Hlook.
Defined.

Lemma order_irrelevant_witness :
  range_order (list_to_map two_entries) two_entries
  ∧ range_order (list_to_map two_entries) two_entries_swapped
  ∧ SetDesiredComposedResources body_AsStruct blank two_entries
      = SetDesiredComposedResources body_AsStruct blank two_entries_swapped.
Proof.
  split; [exact two_entries_order|].
  split; [exact two_entries_swapped_order|].
  exact (SetDesiredComposedResources_order_irrelevant body_AsStruct blank
           (list_to_map two_entries) two_entries two_entries_swapped
           two_entries_order two_entries_swapped_order two_entries_serialize).
Defined.

Lemma registers_witness :
  (Empty example_gvk = false ∧ "req-1" ≠ "" ∧ "my-resource" ≠ "")
  ∧ ∃ rsp',
      RequestExtraResourceByName blank "req-1" "my-resource" example_gvk
        = Some (rsp', None)
      ∧ extra_resources rsp' !! "req-1" =
          Some {| Sel_ApiVersion := "example.org/v1"; Sel_Kind := "Widget";
                  Sel_Match := Some (ResourceSelector_MatchName "my-resource") |}.
Proof.
  split; [done|].
  destruct (RequestExtraResource_registers blank "req-1" "my-resource" None
              example_gvk) as [(rsp' & Hrun & Hsel & _) _]; [done..|].
  exists rsp'. split; [exact Hrun | exact Hsel].
Defined.

Lemma same_id_overwrites_witness :
  ∃ r1 r2,
    RequestExtraResourceByName blank "req-1" "my-resource" example_gvk
      = Some (r1, None)
    ∧ RequestExtraResourceByLabels r1 "req-1" None example_gvk = Some (r2, None)
    ∧ RequestExtraResourceByLabels blank "req-1" None example_gvk
        = Some (r2, None).
Proof.
  do 2 eexists.
  split; [vm_compute; reflexivity|]. split; [vm_compute; reflexivity|].
  eapply (RequestExtraResource_same_id_overwrites
            body_type words_Sprintf body_AsStruct blank
            (CallRequestExtraResourceByName "req-1" "my-resource" example_gvk)
            (CallRequestExtraResourceByLabels "req-1" None example_gvk)
            "req-1");
    [reflexivity | reflexivity | vm_compute; reflexivity | vm_compute; reflexivity].
Defined.

Lemma error_of_ByName_witness :
  RequestExtraResourceByLabels blank "" None example_gvk
    = Some (blank, Some (errorString
        "cannot request extra resource by name with empty ID"))
  ∧ RequestExtraResourceByName blank "" "my-resource" example_gvk
      = Some (blank, Some (errorString
          "cannot request extra resource by name with empty ID")).
Proof.
  split; [reflexivity|].
  by destruct (RequestExtraResourceByLabels_error_of_ByName
                 blank "" "my-resource" None example_gvk blank
                 (errorString "cannot request extra resource by name with empty ID")
                 eq_refl) as [H _].
Defined.



Lemma write_one_section_witness :
  run_call body_type words_Sprintf body_AsStruct blank
    (CallSetContextKey "note" "hello")
    = Some (set_Context blank (Some {| Fields := Some {[ "note" := "hello" ]} |}),
            None)
  ∧ Desired (set_Context blank (Some {| Fields := Some {[ "note" := "hello" ]} |}))
      = None.
Proof.
  assert (run_call body_type words_Sprintf body_AsStruct blank
            (CallSetContextKey "note" "hello")
          = Some (set_Context blank
                    (Some {| Fields := Some {[ "note" := "hello" ]} |}), None))
    as Hrun.
  { vm_compute. reflexivity. }
  split; [exact Hrun|].
  destruct (builders_write_one_section body_type words_Sprintf body_AsStruct
              blank (CallSetContextKey "note" "hello") _ _ Hrun)
    as (_ & _ & Hdesired & _).
  by rewrite Hdesired.
Defined.

